(** * Green Book cost-benefit analysis tools

    A shallow embedding of [src/cba_tools.py] and the properties its
    specification states about it.

    Representation of the Python values:
    - [int] is [Z] (unbounded, as in Python);
    - [float] is [Q]: arithmetic is exact, rounding of binary64 is not
      modelled.  Literals are written as in the source ([0.030], [1.0]).
      Where a property needs the binary64 results to stay in range (no sum
      that overflows, no factor that has left the normal numbers), the
      range is a hypothesis of the property;
    - [str] is [string], [list] is [list], an optional argument whose default
      is [None] is an [option];
    - a [dict] literal is an association list in insertion order (the order
      is visible in the message of [apply_optimism_bias]);
    - a call that may [raise] returns a [result]. *)

From Stdlib Require Import ZArith QArith List String Bool Lia Lqa.
Import ListNotations.

Local Open Scope string_scope.
Local Open Scope list_scope.
Local Open Scope Q_scope.

(** ** Exceptions and results *)

Inductive exn : Type :=
| ValueError (msg : string)
| KeyError (key : string).

Inductive result (A : Type) : Type :=
| Ok (value : A)
| Raise (e : exn).

Arguments Ok {A} value.
Arguments Raise {A} e.

Definition raises {A : Type} (r : result A) : Prop :=
  exists e, r = Raise e.

(** [r] is a value, equal as a rational to [q]. *)
Definition returns (r : result Q) (q : Q) : Prop :=
  exists v, r = Ok v /\ v == q.

(** ** The Python builtins the module uses *)

Module Py.

(** [range(start, stop)]: empty when [stop <= start]. *)
Definition range (start stop : Z) : list Z :=
  map (fun i => (start + Z.of_nat i)%Z) (seq 0 (Z.to_nat (stop - start))).

Definition len {A : Type} (l : list A) : Z := Z.of_nat (List.length l).

(** [zip] stops at the end of the shorter sequence. *)
Definition zip {A B : Type} (xs : list A) (ys : list B) : list (A * B) :=
  combine xs ys.

(** [sum(iterable)]: starts from 0 and adds from left to right. *)
Definition sum (xs : list Q) : Q := fold_left Qplus xs 0.

(** [repr] of a string without quotes or escapes, and of a list of them,
    as an f-string prints [list(d.keys())]. *)
Definition repr_str (s : string) : string := ("'" ++ s ++ "'")%string.

Definition repr_list (l : list string) : string :=
  ("[" ++ String.concat ", " (map repr_str l) ++ "]")%string.

(** Dictionaries with string keys, in insertion order. *)
Definition dict (V : Type) : Type := list (string * V).

Fixpoint get {V : Type} (d : dict V) (k : string) : option V :=
  match d with
  | [] => None
  | (k', v) :: d' => if String.eqb k k' then Some v else get d' k
  end.

(** [k in d] *)
Definition contains {V : Type} (d : dict V) (k : string) : bool :=
  match get d k with Some _ => true | None => false end.

Definition keys {V : Type} (d : dict V) : list string := map fst d.

End Py.

(** ** GREEN_BOOK_RATES *)

Record standard_rates : Type := {
  years_0_30 : Q;
  years_31_75 : Q;
  years_76_125 : Q;
  years_126_200 : Q;
  years_201_300 : Q;
  years_301_plus : Q
}.

Record rate_table : Type := {
  standard : standard_rates;
  health : Q;
  reduced : Q
}.

Definition GREEN_BOOK_RATES : rate_table := {|
  standard := {|
    years_0_30 := 0.035;
    years_31_75 := 0.030;
    years_76_125 := 0.025;
    years_126_200 := 0.020;
    years_201_300 := 0.015;
    years_301_plus := 0.010
  |};
  health := 0.015;
  reduced := 0.030
|}.

(** ** get_discount_rate *)

Definition get_discount_rate (year : Z) (rate_type : string) : Q :=
  if String.eqb rate_type "health" then
    health GREEN_BOOK_RATES
  else if String.eqb rate_type "reduced" then
    reduced GREEN_BOOK_RATES
  else
    if (year <=? 30)%Z then years_0_30 (standard GREEN_BOOK_RATES)
    else if (year <=? 75)%Z then years_31_75 (standard GREEN_BOOK_RATES)
    else if (year <=? 125)%Z then years_76_125 (standard GREEN_BOOK_RATES)
    else if (year <=? 200)%Z then years_126_200 (standard GREEN_BOOK_RATES)
    else if (year <=? 300)%Z then years_201_300 (standard GREEN_BOOK_RATES)
    else years_301_plus (standard GREEN_BOOK_RATES).

(** ** calculate_discount_factor *)

(** The body of the [for] loop: one year of compounding. *)
Definition compound (rate_type : string) (discount_factor : Q) (y : Z) : Q :=
  let rate := get_discount_rate y rate_type in
  discount_factor / (1 + rate).

Definition calculate_discount_factor (year : Z) (rate_type : string) : Q :=
  if (year =? 0)%Z then 1.0
  else
    let discount_factor := 1.0 in
    fold_left (compound rate_type) (Py.range 1 (year + 1)) discount_factor.

(** ** calculate_npv_greenbook *)

Definition default_years {A : Type} (xs : list A) (years : option (list Z))
  : list Z :=
  match years with
  | None => Py.range 0 (Py.len xs)
  | Some ys => ys
  end.

Definition calculate_npv_greenbook
    (cash_flows : list Q) (years : option (list Z)) (rate_type : string)
  : result Q :=
  let years := default_years cash_flows years in
  if negb (Py.len cash_flows =? Py.len years)%Z then
    Raise (ValueError "cash_flows and years must have same length")
  else
    let npv := 0.0 in
    Ok (fold_left
          (fun npv '(cf, year) =>
             let df := calculate_discount_factor year rate_type in
             npv + cf * df)
          (Py.zip cash_flows years) npv).

(** ** calculate_bcr *)

Definition calculate_bcr
    (costs benefits : list Q) (years : option (list Z)) (rate_type : string)
  : result Q :=
  let years := default_years costs years in
  let pv_costs :=
    Py.sum (map (fun '(c, y) => c * calculate_discount_factor y rate_type)
                (Py.zip costs years)) in
  let pv_benefits :=
    Py.sum (map (fun '(b, y) => b * calculate_discount_factor y rate_type)
                (Py.zip benefits years)) in
  if Qeq_bool pv_costs 0 then
    Raise (ValueError "Total discounted costs cannot be zero")
  else
    Ok (pv_benefits / pv_costs).

(** ** apply_optimism_bias *)

Definition bias_factors : Py.dict Q := [
  ("standard_building", 0.24);
  ("non_standard_building", 0.51);
  ("standard_civil_engineering", 0.44);
  ("non_standard_civil_engineering", 0.66);
  ("equipment_development", 0.54);
  ("outsourcing", 0.41)
].

Definition apply_optimism_bias (cost_estimate : Q) (project_type : string)
  : result Q :=
  if negb (Py.contains bias_factors project_type) then
    Raise (ValueError ("Unknown project type. Choose from: "
                       ++ Py.repr_list (Py.keys bias_factors))%string)
  else
    match Py.get bias_factors project_type with
    | Some uplift => Ok (cost_estimate * (1 + uplift))
    | None => Raise (KeyError project_type)
    end.

(** ** The error taxonomy of the specification

    The specification names three kinds of input error.  The source raises
    [ValueError] for each of them; they are told apart by their message. *)

Definition LengthMismatchError : exn :=
  ValueError "cash_flows and years must have same length".

Definition ZeroDenominatorError : exn :=
  ValueError "Total discounted costs cannot be zero".

Definition UnknownCategoryError : exn :=
  ValueError
    "Unknown project type. Choose from: ['standard_building', 'non_standard_building', 'standard_civil_engineering', 'non_standard_civil_engineering', 'equipment_development', 'outsourcing']".

(** ** What the specification says, in its own words *)

(** The product over [y] from 1 to [n] inclusive of [1 / (1 + rate y)]. *)
Fixpoint discount_product (n : nat) (rate_type : string) : Q :=
  match n with
  | O => 1
  | S k =>
      discount_product k rate_type
      * (1 / (1 + get_discount_rate (Z.of_nat (S k)) rate_type))
  end.

(** The sum of [f i] over [0 <= i < n]. *)
Fixpoint sum_upto (f : nat -> Q) (n : nat) : Q :=
  match n with
  | O => 0
  | S k => sum_upto f k + f k
  end.

(** The sum over all positions [i] of [amounts[i] * factor(years[i])];
    the positions are those that both sequences have. *)
Definition discounted_total
    (amounts : list Q) (years : list Z) (rate_type : string) : Q :=
  sum_upto
    (fun i => nth i amounts 0
              * calculate_discount_factor (nth i years 0%Z) rate_type)
    (Nat.min (List.length amounts) (List.length years)).

(** The years [0, 1, 2, ...], one per position of [xs]. *)
Definition consecutive_years {A : Type} (xs : list A) : list Z :=
  map Z.of_nat (seq 0 (List.length xs)).

(** The years a sequence is aligned with: those given, or, when omitted,
    0, 1, 2, ... by position. *)
Definition positional_years {A : Type} (xs : list A)
    (years : option (list Z)) : list Z :=
  match years with
  | None => consecutive_years xs
  | Some ys => ys
  end.

Definition nonnegative (xs : list Q) : Prop := Forall (fun x => 0 <= x) xs.


Definition project_types : list string := [
  "standard_building";
  "non_standard_building";
  "standard_civil_engineering";
  "non_standard_civil_engineering";
  "equipment_development";
  "outsourcing"
].

(** [msg] names [tag]: the tag, quoted, occurs in the message. *)
Definition names (msg tag : string) : bool :=
  match index 0 (Py.repr_str tag) msg with
  | Some _ => true
  | None => false
  end.

(** ** The range of binary64

    The smallest normal number, below which a division can round back to its
    own argument, and half of the largest power of two: rounded sums of
    non-negative terms whose exact sum is below it cannot overflow. *)

Definition binary64_min_normal : Q := 2 ^ (-1022).


(** * Properties *)

(** ** Discount rates *)

Section Rates.

Variable rate_type : string.

Lemma get_discount_rate_health (year : Z) :
  get_discount_rate year "health" = 0.015.
Proof. reflexivity. Qed.

Lemma get_discount_rate_reduced (year : Z) :
  get_discount_rate year "reduced" = 0.030.
Proof. reflexivity. Qed.

Lemma get_discount_rate_fallthrough (year : Z) :
  rate_type <> "health" -> rate_type <> "reduced" ->
  get_discount_rate year rate_type = get_discount_rate year "standard".
Proof.
  intros Hh Hr. unfold get_discount_rate.
  apply String.eqb_neq in Hh, Hr. rewrite Hh, Hr. reflexivity.
Qed.

(** Every rate of the table is a fraction strictly between 0 and 1. *)
Lemma get_discount_rate_bounds (year : Z) :
  0 < get_discount_rate year rate_type < 1.
Proof.
  unfold get_discount_rate.
  repeat match goal with
         | |- context [if ?b then _ else _] => destruct b
         end; split; reflexivity.
Qed.

Lemma get_discount_rate_pos (year : Z) :
  0 < get_discount_rate year rate_type.
Proof. apply get_discount_rate_bounds. Qed.

End Rates.

(** The bands of the standard schedule. *)
Lemma standard_bands (year : Z) :
  get_discount_rate year "standard" =
    if (year <=? 30)%Z then 0.035
    else if (year <=? 75)%Z then 0.030
    else if (year <=? 125)%Z then 0.025
    else if (year <=? 200)%Z then 0.020
    else if (year <=? 300)%Z then 0.015
    else 0.010.
Proof. reflexivity. Qed.

(** ** The range of the compounding loop *)

Lemma range_empty (start stop : Z) :
  (stop <= start)%Z -> Py.range start stop = [].
Proof.
  intros H. unfold Py.range.
  replace (Z.to_nat (stop - start)) with O by lia. reflexivity.
Qed.

Lemma range_snoc (start stop : Z) :
  (start <= stop)%Z ->
  Py.range start (stop + 1) = Py.range start stop ++ [stop].
Proof.
  intros H. unfold Py.range.
  replace (Z.to_nat (stop + 1 - start)) with (S (Z.to_nat (stop - start)))
    by lia.
  rewrite seq_S, map_app. simpl. do 3 f_equal. lia.
Qed.

Lemma range_length (start stop : Z) :
  List.length (Py.range start stop) = Z.to_nat (stop - start).
Proof. unfold Py.range. now rewrite length_map, length_seq. Qed.

Lemma range_0_len {A : Type} (xs : list A) :
  Py.range 0 (Py.len xs) = consecutive_years xs.
Proof.
  unfold Py.range, Py.len, consecutive_years.
  rewrite Z.sub_0_r, Nat2Z.id. reflexivity.
Qed.

(** ** The discount factor *)

Section Factor.

Variable rate_type : string.

(** The guard [year == 0] returns what the loop would: for every year the
    factor is the fold of [compound] over [range(1, year + 1)]. *)
Lemma calculate_discount_factor_loop (year : Z) :
  calculate_discount_factor year rate_type =
    fold_left (compound rate_type) (Py.range 1 (year + 1)) 1.0.
Proof.
  unfold calculate_discount_factor.
  destruct (Z.eqb_spec year 0) as [-> | _]; reflexivity.
Qed.

Lemma calculate_discount_factor_nonpos (year : Z) :
  (year <= 0)%Z -> calculate_discount_factor year rate_type = 1.0.
Proof.
  intros H. rewrite calculate_discount_factor_loop, range_empty by lia.
  reflexivity.
Qed.

(** One more year divides the factor once more. *)
Lemma calculate_discount_factor_step (year : Z) :
  (0 < year)%Z ->
  calculate_discount_factor year rate_type =
    calculate_discount_factor (year - 1) rate_type
    / (1 + get_discount_rate year rate_type).
Proof.
  intros H. rewrite !calculate_discount_factor_loop.
  replace (year + 1)%Z with ((year - 1 + 1) + 1)%Z at 1 by lia.
  rewrite range_snoc by lia. rewrite fold_left_app. simpl.
  unfold compound at 1. do 3 f_equal. lia.
Qed.

Lemma calculate_discount_factor_succ (n : nat) :
  calculate_discount_factor (Z.of_nat (S n)) rate_type =
    calculate_discount_factor (Z.of_nat n) rate_type
    / (1 + get_discount_rate (Z.of_nat (S n)) rate_type).
Proof.
  rewrite calculate_discount_factor_step by lia.
  do 2 f_equal. lia.
Qed.

Lemma calculate_discount_factor_product (n : nat) :
  calculate_discount_factor (Z.of_nat n) rate_type
  == discount_product n rate_type.
Proof.
  induction n as [| n IH].
  - reflexivity.
  - rewrite calculate_discount_factor_succ. cbn [discount_product].
    rewrite IH. pose proof (get_discount_rate_pos rate_type (Z.of_nat (S n))).
    field. lra.
Qed.

Lemma calculate_discount_factor_nat_bounds (n : nat) :
  0 < calculate_discount_factor (Z.of_nat n) rate_type <= 1.
Proof.
  induction n as [| n [IHpos IHle]].
  - split; [reflexivity | discriminate].
  - rewrite calculate_discount_factor_succ.
    pose proof (get_discount_rate_pos rate_type (Z.of_nat (S n))) as Hr.
    split.
    + apply Qlt_shift_div_l; lra.
    + apply Qle_shift_div_r; nra.
Qed.

Lemma calculate_discount_factor_pos (year : Z) :
  0 < calculate_discount_factor year rate_type.
Proof.
  destruct (Z_lt_le_dec 0 year) as [H | H].
  - rewrite <- (Z2Nat.id year) by lia.
    apply calculate_discount_factor_nat_bounds.
  - rewrite calculate_discount_factor_nonpos by assumption. reflexivity.
Qed.

Lemma calculate_discount_factor_le_1 (year : Z) :
  calculate_discount_factor year rate_type <= 1.
Proof.
  destruct (Z_lt_le_dec 0 year) as [H | H].
  - rewrite <- (Z2Nat.id year) by lia.
    apply calculate_discount_factor_nat_bounds.
  - rewrite calculate_discount_factor_nonpos by assumption. discriminate.
Qed.

Lemma calculate_discount_factor_succ_le (n : nat) :
  calculate_discount_factor (Z.of_nat (S n)) rate_type
  <= calculate_discount_factor (Z.of_nat n) rate_type.
Proof.
  rewrite calculate_discount_factor_succ.
  pose proof (get_discount_rate_pos rate_type (Z.of_nat (S n))) as Hr.
  pose proof (calculate_discount_factor_pos (Z.of_nat n)) as Hf.
  apply Qle_shift_div_r; nra.
Qed.

Lemma calculate_discount_factor_antitone_nat (n k : nat) :
  calculate_discount_factor (Z.of_nat (n + k)) rate_type
  <= calculate_discount_factor (Z.of_nat n) rate_type.
Proof.
  induction k as [| k IH].
  - rewrite Nat.add_0_r. apply Qle_refl.
  - rewrite Nat.add_succ_r.
    eapply Qle_trans; [apply calculate_discount_factor_succ_le | exact IH].
Qed.

Lemma calculate_discount_factor_antitone (y1 y2 : Z) :
  (0 <= y1 <= y2)%Z ->
  calculate_discount_factor y2 rate_type
  <= calculate_discount_factor y1 rate_type.
Proof.
  intros [H1 H2].
  pose proof (calculate_discount_factor_antitone_nat
                (Z.to_nat y1) (Z.to_nat (y2 - y1))) as H.
  replace (Z.of_nat (Z.to_nat y1 + Z.to_nat (y2 - y1))) with y2 in H by lia.
  replace (Z.of_nat (Z.to_nat y1)) with y1 in H by lia.
  exact H.
Qed.

End Factor.

(** ** Sums over zipped sequences *)

Lemma sum_upto_ext (f g : nat -> Q) (n : nat) :
  (forall i, (i < n)%nat -> f i == g i) -> sum_upto f n == sum_upto g n.
Proof.
  induction n as [| n IH]; intros H; cbn [sum_upto].
  - reflexivity.
  - rewrite IH, (H n) by auto with arith. reflexivity.
Qed.

Lemma sum_upto_shift (f : nat -> Q) (n : nat) :
  sum_upto f (S n) == f O + sum_upto (fun i => f (S i)) n.
Proof.
  induction n as [| n IH].
  - cbn. ring.
  - change (sum_upto f (S (S n))) with (sum_upto f (S n) + f (S n)).
    rewrite IH. cbn [sum_upto]. ring.
Qed.

Lemma sum_upto_nonneg (f : nat -> Q) (n : nat) :
  (forall i, (i < n)%nat -> 0 <= f i) -> 0 <= sum_upto f n.
Proof.
  induction n as [| n IH]; intros H; cbn [sum_upto].
  - apply Qle_refl.
  - assert (0 <= sum_upto f n) by (apply IH; auto with arith).
    assert (0 <= f n) by (apply H; auto with arith).
    lra.
Qed.

Lemma sum_upto_zero (f : nat -> Q) (n : nat) :
  (forall i, (i < n)%nat -> f i == 0) -> sum_upto f n == 0.
Proof.
  intros H. rewrite (sum_upto_ext f (fun _ => 0)) by assumption.
  clear H. induction n as [| n IH]; cbn [sum_upto].
  - reflexivity.
  - rewrite IH. ring.
Qed.

Section ZipSum.

Variable term : Q -> Z -> Q.
Variable step : Q -> Q * Z -> Q.
Hypothesis step_adds : forall acc x y, step acc (x, y) == acc + term x y.

(** A loop that adds one term per pair of [zip(xs, ys)] computes the sum of
    the terms over the positions the two sequences share. *)
Lemma fold_left_zip_sum (xs : list Q) (ys : list Z) (acc : Q) :
  fold_left step (Py.zip xs ys) acc
  == acc + sum_upto (fun i => term (nth i xs 0) (nth i ys 0%Z))
                    (Nat.min (List.length xs) (List.length ys)).
Proof.
  revert ys acc. induction xs as [| x xs IH]; intros ys acc.
  - cbn. ring.
  - destruct ys as [| y ys].
    + cbn. ring.
    + cbn [Py.zip combine fold_left List.length Nat.min].
      change (combine xs ys) with (Py.zip xs ys).
      rewrite IH, step_adds, sum_upto_shift. cbn [nth]. ring.
Qed.

End ZipSum.

Lemma fold_left_map {A B C : Type} (f : A -> B -> A) (g : C -> B)
    (l : list C) (a : A) :
  fold_left f (map g l) a = fold_left (fun acc x => f acc (g x)) l a.
Proof.
  revert a. induction l as [| x l IH]; intros a; cbn; [reflexivity | apply IH].
Qed.

(** The generator expression of [calculate_bcr], summed by [sum]. *)
Lemma sum_zip_discounted (amounts : list Q) (years : list Z)
    (rate_type : string) :
  Py.sum (map (fun '(c, y) => c * calculate_discount_factor y rate_type)
              (Py.zip amounts years))
  == discounted_total amounts years rate_type.
Proof.
  unfold Py.sum. rewrite fold_left_map.
  rewrite (fold_left_zip_sum
             (fun c y => c * calculate_discount_factor y rate_type)).
  - unfold discounted_total. ring.
  - intros acc x y. reflexivity.
Qed.

(** The accumulation loop of [calculate_npv_greenbook]. *)
Lemma npv_loop_discounted (cash_flows : list Q) (years : list Z)
    (rate_type : string) :
  fold_left
    (fun npv '(cf, year) =>
       let df := calculate_discount_factor year rate_type in
       npv + cf * df)
    (Py.zip cash_flows years) 0.0
  == discounted_total cash_flows years rate_type.
Proof.
  rewrite (fold_left_zip_sum
             (fun c y => c * calculate_discount_factor y rate_type)).
  - unfold discounted_total. ring.
  - intros acc x y. reflexivity.
Qed.

Lemma consecutive_years_length {A : Type} (xs : list A) :
  List.length (consecutive_years xs) = List.length xs.
Proof. unfold consecutive_years. now rewrite length_map, length_seq. Qed.

Lemma consecutive_years_nth {A : Type} (xs : list A) (i : nat) :
  (i < List.length xs)%nat -> nth i (consecutive_years xs) 0%Z = Z.of_nat i.
Proof.
  intros H. unfold consecutive_years.
  change 0%Z with (Z.of_nat O). rewrite map_nth, seq_nth by assumption.
  reflexivity.
Qed.

Lemma default_years_positional {A : Type} (xs : list A)
    (years : option (list Z)) :
  default_years xs years = positional_years xs years.
Proof. destruct years; [reflexivity | apply range_0_len]. Qed.

Lemma discounted_total_nonneg (amounts : list Q) (years : list Z)
    (rate_type : string) :
  nonnegative amounts -> 0 <= discounted_total amounts years rate_type.
Proof.
  intros H. apply sum_upto_nonneg. intros i _.
  assert (0 <= nth i amounts 0) as Hx.
  { destruct (Nat.lt_ge_cases i (List.length amounts)) as [Hi | Hi].
    - apply (proj1 (Forall_forall _ _) H). now apply nth_In.
    - rewrite nth_overflow by assumption. apply Qle_refl. }
  pose proof (calculate_discount_factor_pos rate_type (nth i years 0%Z)).
  nra.
Qed.

Lemma discounted_total_zero (amounts : list Q) (years : list Z)
    (rate_type : string) :
  Forall (fun c => c == 0) amounts ->
  discounted_total amounts years rate_type == 0.
Proof.
  intros H. apply sum_upto_zero. intros i _.
  assert (nth i amounts 0 == 0) as Hx.
  { destruct (Nat.lt_ge_cases i (List.length amounts)) as [Hi | Hi].
    - apply (proj1 (Forall_forall _ _) H). now apply nth_In.
    - rewrite nth_overflow by assumption. reflexivity. }
  rewrite Hx. ring.
Qed.

(** ** Net present value and benefit-cost ratio *)

Lemma calculate_npv_greenbook_mismatch (cash_flows : list Q) (years : list Z)
    (rate_type : string) :
  List.length cash_flows <> List.length years ->
  calculate_npv_greenbook cash_flows (Some years) rate_type
  = Raise LengthMismatchError.
Proof.
  intros H. unfold calculate_npv_greenbook, default_years, Py.len.
  destruct (Z.eqb_spec (Z.of_nat (List.length cash_flows))
                       (Z.of_nat (List.length years))) as [E | _].
  - apply Nat2Z.inj in E. contradiction.
  - reflexivity.
Qed.

Lemma calculate_npv_greenbook_match (cash_flows : list Q) (years : list Z)
    (rate_type : string) :
  List.length cash_flows = List.length years ->
  returns (calculate_npv_greenbook cash_flows (Some years) rate_type)
          (discounted_total cash_flows years rate_type).
Proof.
  intros H. unfold calculate_npv_greenbook, default_years, Py.len.
  rewrite H, Z.eqb_refl. cbn [negb].
  eexists. split; [reflexivity | apply npv_loop_discounted].
Qed.

Lemma calculate_npv_greenbook_default (cash_flows : list Q)
    (rate_type : string) :
  calculate_npv_greenbook cash_flows None rate_type
  = calculate_npv_greenbook cash_flows (Some (consecutive_years cash_flows))
                            rate_type.
Proof.
  unfold calculate_npv_greenbook. now rewrite !default_years_positional.
Qed.

Lemma discounted_total_same_length (amounts : list Q) (years : list Z)
    (rate_type : string) :
  List.length amounts = List.length years ->
  discounted_total amounts years rate_type
  = sum_upto
      (fun i => nth i amounts 0
                * calculate_discount_factor (nth i years 0%Z) rate_type)
      (List.length amounts).
Proof.
  intros H. unfold discounted_total. now rewrite <- H, Nat.min_id.
Qed.

Section Bcr.

Variables (costs benefits : list Q) (years : option (list Z)).
Variable rate_type : string.

(** The years the ratio is computed with are the given ones, or one per
    cost; both totals use them. *)
Local Abbreviation pv_costs :=
  (discounted_total costs (positional_years costs years) rate_type).
Local Abbreviation pv_benefits :=
  (discounted_total benefits (positional_years costs years) rate_type).

Lemma calculate_bcr_zero :
  pv_costs == 0 ->
  calculate_bcr costs benefits years rate_type = Raise ZeroDenominatorError.
Proof.
  intros H. unfold calculate_bcr.
  rewrite default_years_positional.
  destruct (Qeq_bool _ 0) eqn:E; [reflexivity |].
  apply Qeq_bool_neq in E. rewrite sum_zip_discounted in E. contradiction.
Qed.

Lemma calculate_bcr_nonzero :
  ~ pv_costs == 0 ->
  exists c b,
    calculate_bcr costs benefits years rate_type = Ok (b / c)
    /\ c == pv_costs /\ b == pv_benefits.
Proof.
  intros H. unfold calculate_bcr.
  rewrite default_years_positional.
  destruct (Qeq_bool _ 0) eqn:E.
  - apply Qeq_bool_eq in E. rewrite sum_zip_discounted in E. contradiction.
  - do 2 eexists. split; [reflexivity |].
    split; apply sum_zip_discounted.
Qed.

Lemma calculate_bcr_returns :
  ~ pv_costs == 0 ->
  returns (calculate_bcr costs benefits years rate_type)
          (pv_benefits / pv_costs).
Proof.
  intros H. destruct (calculate_bcr_nonzero H) as (c & b & E & Hc & Hb).
  exists (b / c). split; [exact E |]. now rewrite Hc, Hb.
Qed.

Lemma calculate_bcr_raises_iff :
  raises (calculate_bcr costs benefits years rate_type) <-> pv_costs == 0.
Proof.
  split.
  - intros [e He]. destruct (Qeq_dec pv_costs 0) as [E | N]; [exact E |].
    destruct (calculate_bcr_returns N) as (v & Hv & _). congruence.
  - intros H. eexists. now apply calculate_bcr_zero.
Qed.


End Bcr.

(** ** Optimism bias *)

Lemma contains_bias_factors (project_type : string) :
  Py.contains bias_factors project_type = true <-> In project_type project_types.
Proof.
  unfold Py.contains, bias_factors, project_types. cbn [Py.get In].
  repeat match goal with
         | |- context [String.eqb project_type ?s] =>
             destruct (String.eqb_spec project_type s) as [-> | ?]
         end; split; intros H; try reflexivity; try discriminate; auto 8.
  intuition congruence.
Qed.

Lemma apply_optimism_bias_unknown (cost_estimate : Q) (project_type : string) :
  ~ In project_type project_types ->
  apply_optimism_bias cost_estimate project_type = Raise UnknownCategoryError.
Proof.
  intros H. unfold apply_optimism_bias.
  destruct (Py.contains bias_factors project_type) eqn:E.
  - apply contains_bias_factors in E. contradiction.
  - reflexivity.
Qed.

Lemma apply_optimism_bias_known (cost_estimate : Q) (project_type : string) :
  In project_type project_types ->
  exists uplift,
    Py.get bias_factors project_type = Some uplift
    /\ apply_optimism_bias cost_estimate project_type
       = Ok (cost_estimate * (1 + uplift)).
Proof.
  intros H. cbn in H.
  repeat (destruct H as [<- | H]; [eexists; split; reflexivity |]).
  contradiction.
Qed.

(** * The claims of the specification *)

Lemma range_1_succ (year : Z) :
  Py.range 1 (year + 1) = map Z.of_nat (seq 1 (Z.to_nat year)).
Proof.
  unfold Py.range. replace (year + 1 - 1)%Z with year by lia.
  rewrite <- seq_shift, map_map. apply map_ext. intros i. lia.
Qed.

(** C1: for every rate category the factor of year 0 is exactly 1.0, and for
    every year > 0 the factor is what the loop computes, starting from 1.0 and
    dividing by [1 + rate(y)] for y = 1, ..., year in turn, which is the
    product over y from 1 to year of [1 / (1 + rate(y))]. *)
Theorem calculate_discount_factor_compounds (rate_type : string) :
  calculate_discount_factor 0 rate_type = 1.0
  /\ forall year : Z, (0 < year)%Z ->
       calculate_discount_factor year rate_type
       = fold_left
           (fun factor y => factor / (1 + get_discount_rate y rate_type))
           (map Z.of_nat (seq 1 (Z.to_nat year))) 1.0
       /\ calculate_discount_factor year rate_type
          == discount_product (Z.to_nat year) rate_type.
Proof.
  split; [reflexivity |]. intros year Hy. split.
  - rewrite calculate_discount_factor_loop, range_1_succ. reflexivity.
  - rewrite <- (Z2Nat.id year) at 1 by lia.
    apply calculate_discount_factor_product.
Qed.

Lemma calculate_discount_factor_compounds_witness :
  (0 < 3)%Z
  /\ calculate_discount_factor 3 "standard"
     == discount_product (Z.to_nat 3) "standard".
Proof.
  split; [reflexivity |].
  apply (proj2 (proj2 (calculate_discount_factor_compounds "standard")
                  3%Z eq_refl)).
Defined.

(** C2: the rate is 0.015 for 'health' and 0.030 for 'reduced' whatever the
    year; for 'standard' it is the rate of the band the year falls in, the
    bands having the inclusive upper bounds 30, 75, 125, 200 and 300, with a
    last band for the years above 300. *)
Theorem get_discount_rate_table :
  (forall year : Z, (0 <= year)%Z ->
     get_discount_rate year "health" = 0.015
     /\ get_discount_rate year "reduced" = 0.030)
  /\ (forall year : Z, (0 <= year)%Z ->
        ((year <= 30)%Z -> get_discount_rate year "standard" = 0.035)
        /\ ((30 < year <= 75)%Z -> get_discount_rate year "standard" = 0.030)
        /\ ((75 < year <= 125)%Z -> get_discount_rate year "standard" = 0.025)
        /\ ((125 < year <= 200)%Z -> get_discount_rate year "standard" = 0.020)
        /\ ((200 < year <= 300)%Z -> get_discount_rate year "standard" = 0.015)
        /\ ((300 < year)%Z -> get_discount_rate year "standard" = 0.010))
  /\ get_discount_rate 30 "standard" = 0.035
  /\ get_discount_rate 31 "standard" = 0.030
  /\ get_discount_rate 125 "standard" = 0.025
  /\ get_discount_rate 126 "standard" = 0.020
  /\ get_discount_rate 300 "standard" = 0.015
  /\ get_discount_rate 301 "standard" = 0.010.
Proof.
  split; [intros year _; split; reflexivity |].
  split; [| repeat split].
  intros year _. rewrite standard_bands.
  repeat split; intros H;
    repeat match goal with
           | |- context [(year <=? ?b)%Z] =>
               destruct (Z.leb_spec year b); try lia
           end; reflexivity.
Qed.

Lemma get_discount_rate_table_witness :
  (0 <= 100)%Z /\ (75 < 100 <= 125)%Z
  /\ get_discount_rate 100 "standard" = 0.025.
Proof.
  assert (0 <= 100)%Z as H0 by discriminate.
  assert (75 < 100 <= 125)%Z as H1 by (split; [reflexivity | discriminate]).
  split; [exact H0 |]. split; [exact H1 |].
  apply (proj1 (proj2 (proj2
           (proj1 (proj2 get_discount_rate_table) 100%Z H0))) H1).
Defined.

(** C7: a rate category that is neither 'health' nor 'reduced', recognised or
    not, gets the rate of 'standard'; no error is raised. *)
Theorem get_discount_rate_unrecognized (year : Z) (rate_type : string) :
  (0 <= year)%Z ->
  rate_type <> "health" -> rate_type <> "reduced" ->
  get_discount_rate year rate_type = get_discount_rate year "standard".
Proof.
  intros _. apply get_discount_rate_fallthrough.
Qed.

Lemma get_discount_rate_unrecognized_witness :
  get_discount_rate 50 "social" = get_discount_rate 50 "standard".
Proof.
  apply (get_discount_rate_unrecognized 50 "social");
    [discriminate | discriminate | discriminate].
Defined.

(** C8: for a fixed rate category the factor does not increase with the year
    over the years >= 0, and it lies in the interval (0, 1]. *)
Theorem calculate_discount_factor_monotone (rate_type : string) :
  (forall y1 y2 : Z, (0 <= y1)%Z -> (y1 <= y2)%Z ->
     calculate_discount_factor y2 rate_type
     <= calculate_discount_factor y1 rate_type)
  /\ (forall year : Z, (0 <= year)%Z ->
        0 < calculate_discount_factor year rate_type
        /\ calculate_discount_factor year rate_type <= 1).
Proof.
  split.
  - intros y1 y2 H1 H2. apply calculate_discount_factor_antitone. lia.
  - intros year _. split.
    + apply calculate_discount_factor_pos.
    + apply calculate_discount_factor_le_1.
Qed.

Lemma calculate_discount_factor_monotone_witness :
  calculate_discount_factor 31 "standard"
  <= calculate_discount_factor 30 "standard".
Proof.
  apply (proj1 (calculate_discount_factor_monotone "standard") 30%Z 31%Z);
    discriminate.
Defined.

(** C10: for every year < 0 the range of the loop is empty and the factor is
    exactly 1.0, as for year 0. *)
Theorem calculate_discount_factor_negative (year : Z) (rate_type : string) :
  (year < 0)%Z ->
  Py.range 1 (year + 1) = []
  /\ calculate_discount_factor year rate_type = 1.0
  /\ calculate_discount_factor year rate_type
     = calculate_discount_factor 0 rate_type.
Proof.
  intros H. split; [apply range_empty; lia |].
  rewrite calculate_discount_factor_nonpos by lia. split; reflexivity.
Qed.

Lemma calculate_discount_factor_negative_witness :
  calculate_discount_factor (-5) "health" = 1.0.
Proof.
  apply (calculate_discount_factor_negative (-5) "health" eq_refl).
Defined.

(** C3: the net present value is the sum over all positions i of
    [cash_flows[i] * factor(years[i])]; without [years] the years are
    0, 1, 2, ... by position, so that the sum is that of
    [cash_flows[i] * factor(i)]. *)
Theorem calculate_npv_greenbook_sum
    (cash_flows : list Q) (rate_type : string) :
  (forall years : list Z,
     List.length cash_flows = List.length years ->
     returns
       (calculate_npv_greenbook cash_flows (Some years) rate_type)
       (sum_upto
          (fun i => nth i cash_flows 0
                    * calculate_discount_factor (nth i years 0%Z) rate_type)
          (List.length cash_flows)))
  /\ calculate_npv_greenbook cash_flows None rate_type
     = calculate_npv_greenbook cash_flows
         (Some (map Z.of_nat (seq 0 (List.length cash_flows)))) rate_type
  /\ returns
       (calculate_npv_greenbook cash_flows None rate_type)
       (sum_upto
          (fun i => nth i cash_flows 0
                    * calculate_discount_factor (Z.of_nat i) rate_type)
          (List.length cash_flows)).
Proof.
  assert (forall years : list Z,
            List.length cash_flows = List.length years ->
            returns
              (calculate_npv_greenbook cash_flows (Some years) rate_type)
              (sum_upto
                 (fun i => nth i cash_flows 0
                           * calculate_discount_factor (nth i years 0%Z)
                                                       rate_type)
                 (List.length cash_flows))) as Hsome.
  { intros years H. rewrite <- discounted_total_same_length by assumption.
    now apply calculate_npv_greenbook_match. }
  split; [exact Hsome |].
  split; [apply calculate_npv_greenbook_default |].
  rewrite calculate_npv_greenbook_default.
  destruct (Hsome (consecutive_years cash_flows)) as (v & Hv & E).
  { symmetry. apply consecutive_years_length. }
  exists v. split; [exact Hv |]. rewrite E.
  apply sum_upto_ext. intros i Hi.
  now rewrite (consecutive_years_nth cash_flows) by assumption.
Qed.

Lemma calculate_npv_greenbook_sum_witness :
  List.length [-1000; 600; 600] = List.length [0; 1; 2]%Z
  /\ returns
       (calculate_npv_greenbook [-1000; 600; 600] (Some [0; 1; 2]%Z) "standard")
       (sum_upto
          (fun i => nth i [-1000; 600; 600] 0
                    * calculate_discount_factor (nth i [0; 1; 2]%Z 0%Z)
                                                "standard")
          (List.length [-1000; 600; 600])).
Proof.
  split; [reflexivity |].
  apply (proj1 (calculate_npv_greenbook_sum [-1000; 600; 600] "standard")
           [0; 1; 2]%Z eq_refl).
Defined.

(** C4: [calculate_bcr] fails with the zero-denominator error exactly when
    the discounted cost total is zero, in particular when every cost is zero;
    otherwise it returns the discounted benefit total divided by the
    discounted cost total, unchanged. *)
Theorem calculate_bcr_zero_denominator
    (costs benefits : list Q) (years : option (list Z)) (rate_type : string) :
  let ys := positional_years costs years in
  let pv_costs := discounted_total costs ys rate_type in
  let pv_benefits := discounted_total benefits ys rate_type in
  (calculate_bcr costs benefits years rate_type = Raise ZeroDenominatorError
   <-> pv_costs == 0)
  /\ (raises (calculate_bcr costs benefits years rate_type)
      <-> pv_costs == 0)
  /\ (Forall (fun c => c == 0) costs ->
      calculate_bcr costs benefits years rate_type
      = Raise ZeroDenominatorError)
  /\ (~ pv_costs == 0 ->
      returns (calculate_bcr costs benefits years rate_type)
              (pv_benefits / pv_costs)).
Proof.
  intros ys pv_costs pv_benefits.
  assert (pv_costs == 0 ->
          calculate_bcr costs benefits years rate_type
          = Raise ZeroDenominatorError) as Hzero
    by apply calculate_bcr_zero.
  assert (raises (calculate_bcr costs benefits years rate_type)
          <-> pv_costs == 0) as Hiff
    by apply calculate_bcr_raises_iff.
  repeat split.
  - intros H. apply Hiff. now exists ZeroDenominatorError.
  - exact Hzero.
  - apply Hiff.
  - apply Hiff.
  - intros H. apply Hzero. now apply discounted_total_zero.
  - apply calculate_bcr_returns.
Qed.

Lemma calculate_bcr_zero_denominator_witness :
  Forall (fun c => c == 0) [0; 0]
  /\ calculate_bcr [0; 0] [300000; 320000] None "standard"
     = Raise ZeroDenominatorError.
Proof.
  assert (Forall (fun c => c == 0) [0; 0]) as H
    by (repeat constructor).
  split; [exact H |].
  apply (proj1 (proj2 (proj2
           (calculate_bcr_zero_denominator
              [0; 0] [300000; 320000] None "standard"))) H).
Defined.

(** C5: for each of the six project types the estimate is multiplied by one
    plus the uplift of the type; any other project type, and only those,
    fails with the unknown-category error, whose message names the six
    types. *)
Theorem apply_optimism_bias_uplift (cost_estimate : Q) :
  apply_optimism_bias cost_estimate "standard_building"
  = Ok (cost_estimate * (1 + 0.24))
  /\ apply_optimism_bias cost_estimate "non_standard_building"
     = Ok (cost_estimate * (1 + 0.51))
  /\ apply_optimism_bias cost_estimate "standard_civil_engineering"
     = Ok (cost_estimate * (1 + 0.44))
  /\ apply_optimism_bias cost_estimate "non_standard_civil_engineering"
     = Ok (cost_estimate * (1 + 0.66))
  /\ apply_optimism_bias cost_estimate "equipment_development"
     = Ok (cost_estimate * (1 + 0.54))
  /\ apply_optimism_bias cost_estimate "outsourcing"
     = Ok (cost_estimate * (1 + 0.41))
  /\ (forall project_type : string,
        raises (apply_optimism_bias cost_estimate project_type)
        <-> ~ In project_type project_types)
  /\ (forall project_type : string,
        ~ In project_type project_types ->
        apply_optimism_bias cost_estimate project_type
        = Raise UnknownCategoryError)
  /\ (exists msg : string,
        UnknownCategoryError = ValueError msg
        /\ forallb (names msg) project_types = true).
Proof.
  do 6 (split; [reflexivity |]).
  split; [| split].
  - intros project_type. split.
    + intros [e He] Hin.
      destruct (apply_optimism_bias_known cost_estimate project_type Hin)
        as (uplift & _ & Hok).
      congruence.
    + intros H. eexists. now apply apply_optimism_bias_unknown.
  - intros project_type. apply apply_optimism_bias_unknown.
  - eexists. split; [reflexivity | vm_compute; reflexivity].
Qed.

Lemma apply_optimism_bias_uplift_witness :
  ~ In "railway" project_types
  /\ apply_optimism_bias 10000000 "railway" = Raise UnknownCategoryError.
Proof.
  assert (~ In "railway" project_types) as H.
  { cbn. intros [E | [E | [E | [E | [E | [E | []]]]]]]; discriminate E. }
  split; [exact H |].
  apply (proj1 (proj2 (proj2 (proj2 (proj2 (proj2 (proj2 (proj2
           (apply_optimism_bias_uplift 10000000))))))))
           "railway" H).
Defined.

(** C6: [calculate_bcr] checks no length.  With two costs of 2, one benefit
    of 3 and three years the call does not fail: [zip] drops what has no
    partner, and the ratio 3 / 4 of the truncated sums is returned.  No input
    at all makes [calculate_bcr] raise the length error. *)
Theorem calculate_bcr_mismatch_unchecked :
  List.length [2; 2] <> List.length [3]
  /\ List.length [2; 2] <> List.length [0; 0; 0]%Z
  /\ List.length [3] <> List.length [0; 0; 0]%Z
  /\ ~ raises (calculate_bcr [2; 2] [3] (Some [0; 0; 0]%Z) "standard")
  /\ returns (calculate_bcr [2; 2] [3] (Some [0; 0; 0]%Z) "standard") 0.75
  /\ (forall (costs benefits : list Q) (years : option (list Z))
              (rate_type : string),
        calculate_bcr costs benefits years rate_type
        <> Raise LengthMismatchError).
Proof.
  do 3 (split; [discriminate |]). split; [| split].
  - intros [e He]. discriminate He.
  - eexists. split; reflexivity.
  - intros costs benefits years rate_type. unfold calculate_bcr.
    destruct (Qeq_bool _ 0); discriminate.
Qed.




(** * Further properties of the code *)

(** ** The schedule of rates *)

Lemma get_discount_rate_range (year : Z) (rate_type : string) :
  0.010 <= get_discount_rate year rate_type <= 0.035.
Proof.
  unfold get_discount_rate.
  repeat match goal with
         | |- context [if ?b then _ else _] => destruct b
         end; split; discriminate.
Qed.

(** X1: the schedule only declines: a later year never has a higher rate
    than an earlier one, and every rate lies between 1% and 3.5%. *)
Theorem get_discount_rate_declining (rate_type : string) (y1 y2 : Z) :
  (y1 <= y2)%Z ->
  get_discount_rate y2 rate_type <= get_discount_rate y1 rate_type
  /\ 0.010 <= get_discount_rate y2 rate_type
  /\ get_discount_rate y1 rate_type <= 0.035.
Proof.
  intros H. split; [| split; apply get_discount_rate_range].
  unfold get_discount_rate.
  destruct (String.eqb rate_type "health"); [discriminate |].
  destruct (String.eqb rate_type "reduced"); [discriminate |].
  repeat match goal with
         | |- context [(?y <=? ?b)%Z] => destruct (Z.leb_spec y b)
         end; try lia; discriminate.
Qed.

Lemma get_discount_rate_declining_witness :
  get_discount_rate 76 "standard" <= get_discount_rate 75 "standard".
Proof.
  apply (proj1 (get_discount_rate_declining "standard" 75 76
                  ltac:(discriminate))).
Defined.


(** ** Strict decrease *)

Lemma Qdiv_le_mono (a b x y : Q) :
  0 <= a -> a <= b -> 0 < x -> x <= y -> a / y <= b / x.
Proof.
  intros Ha Hab Hx Hxy.
  apply Qle_shift_div_r; [lra |].
  assert (b / x * y == b * (y / x)) as E by (field; lra).
  rewrite E.
  assert (1 <= y / x) by (apply Qle_shift_div_l; lra).
  nra.
Qed.

Lemma calculate_discount_factor_succ_lt (rate_type : string) (n : nat) :
  calculate_discount_factor (Z.of_nat (S n)) rate_type
  < calculate_discount_factor (Z.of_nat n) rate_type.
Proof.
  rewrite calculate_discount_factor_succ.
  pose proof (get_discount_rate_pos rate_type (Z.of_nat (S n))) as Hr.
  pose proof (calculate_discount_factor_pos rate_type (Z.of_nat n)) as Hf.
  apply Qlt_shift_div_r; nra.
Qed.

(** X2: as long as the factor of the earlier year is still a normal
    binary64 number, the factor strictly decreases over the years >= 0: a
    later year is discounted more than an earlier one. *)
Theorem calculate_discount_factor_strict (rate_type : string) (y1 y2 : Z) :
  (0 <= y1)%Z -> (y1 < y2)%Z ->
  binary64_min_normal <= calculate_discount_factor y1 rate_type ->
  calculate_discount_factor y2 rate_type
  < calculate_discount_factor y1 rate_type.
Proof.
  intros H1 H2 _.
  apply Qle_lt_trans with (calculate_discount_factor (y1 + 1) rate_type).
  - apply calculate_discount_factor_antitone. lia.
  - pose proof (calculate_discount_factor_succ_lt rate_type (Z.to_nat y1)) as L.
    rewrite Nat2Z.inj_succ, Z2Nat.id in L by lia.
    exact L.
Qed.

Lemma calculate_discount_factor_strict_witness :
  binary64_min_normal <= calculate_discount_factor 10 "health"
  /\ calculate_discount_factor 300 "health"
     < calculate_discount_factor 10 "health".
Proof.
  assert (binary64_min_normal <= calculate_discount_factor 10 "health") as H
    by (vm_compute; discriminate).
  split; [exact H |].
  apply (calculate_discount_factor_strict "health" 10 300);
    [discriminate | reflexivity | exact H].
Defined.

(** ** Comparing schedules *)

Lemma calculate_discount_factor_compare (rt1 rt2 : string) (n : nat) :
  (forall y : Z, (0 < y <= Z.of_nat n)%Z ->
     get_discount_rate y rt1 <= get_discount_rate y rt2) ->
  calculate_discount_factor (Z.of_nat n) rt2
  <= calculate_discount_factor (Z.of_nat n) rt1.
Proof.
  induction n as [| n IH]; intros H.
  - discriminate.
  - rewrite !calculate_discount_factor_succ.
    pose proof (get_discount_rate_pos rt1 (Z.of_nat (S n))) as H1.
    pose proof (calculate_discount_factor_pos rt2 (Z.of_nat n)) as Hf.
    apply Qdiv_le_mono; try lra.
    + apply IH. intros y Hy. apply H. lia.
    + assert (get_discount_rate (Z.of_nat (S n)) rt1
              <= get_discount_rate (Z.of_nat (S n)) rt2) by (apply H; lia).
      lra.
Qed.

(** X6: up to year 300 the standard schedule discounts at least as much as
    'health', and up to year 75 at least as much as 'reduced'. *)
Theorem calculate_discount_factor_standard_lowest (year : Z) :
  (0 <= year)%Z ->
  ((year <= 300)%Z ->
   calculate_discount_factor year "standard"
   <= calculate_discount_factor year "health")
  /\ ((year <= 75)%Z ->
      calculate_discount_factor year "standard"
      <= calculate_discount_factor year "reduced").
Proof.
  intros H. rewrite <- (Z2Nat.id year) by exact H.
  split; intros H'; apply calculate_discount_factor_compare;
    intros y Hy; rewrite standard_bands;
    repeat match goal with
           | |- context [(y <=? ?b)%Z] => destruct (Z.leb_spec y b)
           end; try lia; discriminate.
Qed.

Lemma calculate_discount_factor_standard_lowest_witness :
  calculate_discount_factor 250 "standard"
  <= calculate_discount_factor 250 "health".
Proof.
  apply (proj1 (calculate_discount_factor_standard_lowest 250
                  ltac:(discriminate)) ltac:(discriminate)).
Defined.

(** ** Unrecognised rate categories *)

Lemma fold_left_ext {A B : Type} (f g : A -> B -> A) (l : list B) (a : A) :
  (forall acc x, f acc x = g acc x) -> fold_left f l a = fold_left g l a.
Proof.
  intros H. revert a. induction l as [| x l IH]; intros a; cbn.
  - reflexivity.
  - rewrite H. apply IH.
Qed.

Lemma calculate_discount_factor_fallthrough (rate_type : string) (year : Z) :
  rate_type <> "health" -> rate_type <> "reduced" ->
  calculate_discount_factor year rate_type
  = calculate_discount_factor year "standard".
Proof.
  intros Hh Hr. unfold calculate_discount_factor.
  destruct (year =? 0)%Z; [reflexivity |].
  apply fold_left_ext. intros acc y. unfold compound.
  now rewrite (get_discount_rate_fallthrough rate_type y Hh Hr).
Qed.

(** X7: a rate category that is neither 'health' nor 'reduced' gives, for
    all inputs, the results of 'standard': the same factor, the same net
    present value and the same ratio or error. *)
Theorem unrecognised_category_is_standard (rate_type : string) :
  rate_type <> "health" -> rate_type <> "reduced" ->
  (forall year : Z,
     calculate_discount_factor year rate_type
     = calculate_discount_factor year "standard")
  /\ (forall (cash_flows : list Q) (years : option (list Z)),
        calculate_npv_greenbook cash_flows years rate_type
        = calculate_npv_greenbook cash_flows years "standard")
  /\ (forall (costs benefits : list Q) (years : option (list Z)),
        calculate_bcr costs benefits years rate_type
        = calculate_bcr costs benefits years "standard").
Proof.
  intros Hh Hr.
  pose proof (fun y => calculate_discount_factor_fallthrough rate_type y Hh Hr)
    as F.
  split; [exact F |]. split.
  - intros cash_flows years. unfold calculate_npv_greenbook.
    destruct (negb _); [reflexivity |]. f_equal.
    apply fold_left_ext. intros acc [cf y]. now rewrite F.
  - intros costs benefits years. unfold calculate_bcr.
    rewrite (map_ext _ (fun '(c, y) =>
                          c * calculate_discount_factor y "standard"))
      by (intros [c y]; now rewrite F).
    rewrite (map_ext (fun '(b, y) =>
                        b * calculate_discount_factor y rate_type)
                     (fun '(b, y) =>
                        b * calculate_discount_factor y "standard"))
      by (intros [b y]; now rewrite F).
    reflexivity.
Qed.

Lemma unrecognised_category_is_standard_witness :
  calculate_npv_greenbook [-1000; 600; 600] None "Standard"
  = calculate_npv_greenbook [-1000; 600; 600] None "standard".
Proof.
  apply (proj1 (proj2 (unrecognised_category_is_standard "Standard"
                         ltac:(discriminate) ltac:(discriminate)))).
Defined.

(** ** Net present value: errors and bounds *)

Lemma calculate_npv_greenbook_ok_inv
    (cash_flows : list Q) (years : option (list Z)) (rate_type : string)
    (v : Q) :
  calculate_npv_greenbook cash_flows years rate_type = Ok v ->
  List.length cash_flows = List.length (positional_years cash_flows years)
  /\ v == discounted_total cash_flows (positional_years cash_flows years)
                           rate_type.
Proof.
  unfold calculate_npv_greenbook. rewrite default_years_positional.
  unfold Py.len.
  destruct (Z.eqb_spec
              (Z.of_nat (List.length cash_flows))
              (Z.of_nat (List.length (positional_years cash_flows years))))
    as [E | N]; cbn [negb]; intros H; [| discriminate].
  injection H as <-. split.
  - now apply Nat2Z.inj.
  - apply npv_loop_discounted.
Qed.

Lemma calculate_npv_greenbook_ok_intro
    (cash_flows : list Q) (years : option (list Z)) (rate_type : string) :
  List.length cash_flows = List.length (positional_years cash_flows years) ->
  returns (calculate_npv_greenbook cash_flows years rate_type)
          (discounted_total cash_flows (positional_years cash_flows years)
                            rate_type).
Proof.
  intros H. unfold calculate_npv_greenbook.
  rewrite default_years_positional. unfold Py.len.
  rewrite H, Z.eqb_refl. cbn [negb].
  eexists. split; [reflexivity | apply npv_loop_discounted].
Qed.

Lemma positional_years_length {A : Type} (xs : list A) :
  List.length (positional_years xs None) = List.length xs.
Proof. apply consecutive_years_length. Qed.

Lemma positional_years_same_length {A B : Type} (xs : list A) (ys : list B)
    (years : option (list Z)) :
  List.length xs = List.length ys ->
  positional_years xs years = positional_years ys years.
Proof.
  intros H. destruct years; [reflexivity |].
  unfold positional_years, consecutive_years. now rewrite H.
Qed.

(** X8: [calculate_npv_greenbook] fails only when [years] is given with a
    length other than that of [cash_flows], and then with the length error;
    without [years] it never fails. *)
Theorem calculate_npv_greenbook_errors
    (cash_flows : list Q) (years : option (list Z)) (rate_type : string) :
  (raises (calculate_npv_greenbook cash_flows years rate_type)
   <-> exists ys : list Z,
         years = Some ys /\ List.length cash_flows <> List.length ys)
  /\ (forall e : exn,
        calculate_npv_greenbook cash_flows years rate_type = Raise e ->
        e = LengthMismatchError)
  /\ (years = None ->
      exists v : Q,
        calculate_npv_greenbook cash_flows years rate_type = Ok v).
Proof.
  assert (forall e : exn,
            calculate_npv_greenbook cash_flows years rate_type = Raise e ->
            e = LengthMismatchError
            /\ exists ys : list Z,
                 years = Some ys
                 /\ List.length cash_flows <> List.length ys) as Hinv.
  { intros e He. destruct years as [ys |].
    - destruct (Nat.eq_dec (List.length cash_flows) (List.length ys))
        as [E | N].
      + destruct (calculate_npv_greenbook_match cash_flows ys rate_type E)
          as (v & Hv & _).
        congruence.
      + rewrite calculate_npv_greenbook_mismatch in He by exact N.
        injection He as <-. split; [reflexivity | now exists ys].
    - destruct (calculate_npv_greenbook_ok_intro cash_flows None rate_type)
        as (v & Hv & _).
      + symmetry. apply positional_years_length.
      + congruence. }
  split; [split |]; [| | split].
  - intros [e He]. now apply (Hinv e).
  - intros (ys & -> & N). eexists.
    now apply calculate_npv_greenbook_mismatch.
  - intros e He. now apply (Hinv e).
  - intros ->.
    destruct (calculate_npv_greenbook_ok_intro cash_flows None rate_type)
      as (v & Hv & _).
    + symmetry. apply positional_years_length.
    + now exists v.
Qed.

Lemma calculate_npv_greenbook_errors_witness :
  exists v : Q,
    calculate_npv_greenbook [-1000; 600; 600] None "standard" = Ok v.
Proof.
  apply (proj2 (proj2 (calculate_npv_greenbook_errors
                         [-1000; 600; 600] None "standard")) eq_refl).
Defined.

Lemma sum_upto_le (f g : nat -> Q) (n : nat) :
  (forall i, (i < n)%nat -> f i <= g i) -> sum_upto f n <= sum_upto g n.
Proof.
  induction n as [| n IH]; intros H; cbn [sum_upto].
  - apply Qle_refl.
  - assert (sum_upto f n <= sum_upto g n) by (apply IH; auto with arith).
    assert (f n <= g n) by (apply H; auto with arith).
    lra.
Qed.

Lemma sum_indexed (xs : list Q) :
  Py.sum xs == sum_upto (fun i => nth i xs 0) (List.length xs).
Proof.
  unfold Py.sum.
  assert (forall acc,
            fold_left Qplus xs acc
            == acc + sum_upto (fun i => nth i xs 0) (List.length xs)) as G.
  { induction xs as [| x xs IH]; intros acc.
    - cbn. ring.
    - cbn [fold_left List.length]. rewrite IH, sum_upto_shift.
      cbn [nth]. ring. }
  rewrite G. ring.
Qed.

(** X12: discounting never adds value: the net present value of
    non-negative cash flows is at least 0 and at most their plain sum. *)
Theorem calculate_npv_greenbook_bounds
    (cash_flows : list Q) (years : option (list Z)) (rate_type : string)
    (v : Q) :
  nonnegative cash_flows ->
  calculate_npv_greenbook cash_flows years rate_type = Ok v ->
  0 <= v /\ v <= Py.sum cash_flows.
Proof.
  intros Hnn Hv. apply calculate_npv_greenbook_ok_inv in Hv.
  destruct Hv as [L E]. rewrite E. split.
  - now apply discounted_total_nonneg.
  - rewrite sum_indexed. unfold discounted_total.
    rewrite <- L, Nat.min_id. apply sum_upto_le. intros i Hi.
    assert (0 <= nth i cash_flows 0) as Hx
      by (apply (proj1 (Forall_forall _ _) Hnn); now apply nth_In).
    pose proof (calculate_discount_factor_le_1
                  rate_type
                  (nth i (positional_years cash_flows years) 0%Z)).
    nra.
Qed.

Lemma calculate_npv_greenbook_bounds_witness :
  nonnegative [200; 250; 300]
  /\ exists v : Q,
       calculate_npv_greenbook [200; 250; 300] None "standard" = Ok v
       /\ 0 <= v /\ v <= Py.sum [200; 250; 300].
Proof.
  assert (nonnegative [200; 250; 300]) as H
    by (repeat constructor; discriminate).
  split; [exact H |]. eexists. split; [reflexivity |].
  apply (calculate_npv_greenbook_bounds
           [200; 250; 300] None "standard" _ H eq_refl).
Defined.

(** ** Benefit-cost ratio: relation to the net present value, and what is
    ignored *)

(** X13: for costs and benefits of the same length the ratio is the net
    present value of the benefits over that of the costs, and the call fails
    exactly when the latter is zero. *)
Theorem calculate_bcr_npv_ratio
    (costs benefits : list Q) (years : option (list Z)) (rate_type : string)
    (c b : Q) :
  List.length benefits = List.length costs ->
  calculate_npv_greenbook costs years rate_type = Ok c ->
  calculate_npv_greenbook benefits years rate_type = Ok b ->
  (c == 0 ->
   calculate_bcr costs benefits years rate_type = Raise ZeroDenominatorError)
  /\ (~ c == 0 ->
      returns (calculate_bcr costs benefits years rate_type) (b / c)).
Proof.
  intros Hlen Hc Hb.
  apply calculate_npv_greenbook_ok_inv in Hc, Hb.
  destruct Hc as [_ Ec], Hb as [_ Eb].
  rewrite (positional_years_same_length _ _ years Hlen) in Eb.
  split; intros H.
  - apply calculate_bcr_zero. now rewrite <- Ec.
  - destruct (calculate_bcr_returns costs benefits years rate_type)
      as (v & Hv & E).
    + now rewrite <- Ec.
    + exists v. split; [exact Hv |]. now rewrite E, Ec, Eb.
Qed.

Lemma calculate_bcr_npv_ratio_witness :
  exists c b : Q,
    calculate_npv_greenbook [1000; 50] None "standard" = Ok c
    /\ calculate_npv_greenbook [0; 300] None "standard" = Ok b
    /\ returns (calculate_bcr [1000; 50] [0; 300] None "standard") (b / c).
Proof.
  do 2 eexists. split; [reflexivity |]. split; [reflexivity |].
  refine (proj2 (calculate_bcr_npv_ratio
                   [1000; 50] [0; 300] None "standard" _ _
                   eq_refl eq_refl eq_refl) _).
  discriminate.
Defined.

Lemma combine_firstn_length {A B : Type} (xs : list A) (ys : list B) :
  combine (firstn (List.length ys) xs) ys = combine xs ys.
Proof.
  revert ys. induction xs as [| x xs IH]; intros [| y ys]; cbn;
    try reflexivity.
  f_equal. apply IH.
Qed.

(** X16: empty inputs.  The net present value of no cash flows is 0.0; with
    an empty list of years [calculate_bcr] fails with the zero-denominator
    error whatever the costs and benefits are, and so it does without
    costs. *)
Theorem empty_inputs (rate_type : string) :
  calculate_npv_greenbook [] None rate_type = Ok 0.0
  /\ calculate_npv_greenbook [] (Some []) rate_type = Ok 0.0
  /\ (forall costs benefits : list Q,
        calculate_bcr costs benefits (Some []) rate_type
        = Raise ZeroDenominatorError)
  /\ (forall (benefits : list Q) (years : option (list Z)),
        calculate_bcr [] benefits years rate_type
        = Raise ZeroDenominatorError).
Proof.
  split; [reflexivity |]. split; [reflexivity |]. split.
  - intros costs benefits. apply calculate_bcr_zero.
    unfold discounted_total. cbn [positional_years List.length].
    rewrite Nat.min_0_r. reflexivity.
  - intros benefits years. apply calculate_bcr_zero. reflexivity.
Qed.

(** X17: what [calculate_bcr] ignores.  With [years] given, the costs and
    benefits beyond the number of years play no part; without [years], the
    benefits beyond the number of costs play no part. *)
Theorem calculate_bcr_truncates
    (costs benefits : list Q) (rate_type : string) :
  (forall years : list Z,
     calculate_bcr costs benefits (Some years) rate_type
     = calculate_bcr (firstn (List.length years) costs)
                     (firstn (List.length years) benefits)
                     (Some years) rate_type)
  /\ calculate_bcr costs benefits None rate_type
     = calculate_bcr costs (firstn (List.length costs) benefits) None
                     rate_type.
Proof.
  split.
  - intros years. unfold calculate_bcr, default_years, Py.zip.
    now rewrite !combine_firstn_length.
  - unfold calculate_bcr, Py.zip.
    assert (List.length (default_years costs None) = List.length costs) as L.
    { rewrite default_years_positional. apply positional_years_length. }
    rewrite <- L at 1. now rewrite combine_firstn_length.
Qed.

(** ** Optimism bias: the size of the adjustment *)

(** X18: for a known project type the adjusted cost of a non-negative
    estimate is never below the estimate: it lies between 1.24 and 1.66
    times the estimate; and a larger estimate never gives a smaller adjusted
    cost. *)
Theorem apply_optimism_bias_bounds
    (cost_estimate larger_estimate : Q) (project_type : string) :
  In project_type project_types ->
  0 <= cost_estimate -> cost_estimate <= larger_estimate ->
  exists v w : Q,
    apply_optimism_bias cost_estimate project_type = Ok v
    /\ apply_optimism_bias larger_estimate project_type = Ok w
    /\ cost_estimate <= v
    /\ (1 + 0.24) * cost_estimate <= v
    /\ v <= (1 + 0.66) * cost_estimate
    /\ v <= w.
Proof.
  intros Hin H0 Hle. cbn in Hin.
  repeat (destruct Hin as [<- | Hin];
          [do 2 eexists; split; [reflexivity |]; split; [reflexivity |];
           repeat split; lra |]).
  contradiction.
Qed.

Lemma apply_optimism_bias_bounds_witness :
  exists v w : Q,
    apply_optimism_bias 10000000 "outsourcing" = Ok v
    /\ apply_optimism_bias 12000000 "outsourcing" = Ok w
    /\ 10000000 <= v
    /\ (1 + 0.24) * 10000000 <= v
    /\ v <= (1 + 0.66) * 10000000
    /\ v <= w.
Proof.
  apply (apply_optimism_bias_bounds 10000000 12000000 "outsourcing").
  - cbn. do 5 right. left. reflexivity.
  - discriminate.
  - discriminate.
Defined.

(** ** Cash flows that are not discounted *)

(** X19: cash flows dated at year 0 or before are taken at face value: when
    no year is above 0 the net present value is the plain sum of the cash
    flows. *)
Theorem calculate_npv_greenbook_undiscounted
    (cash_flows : list Q) (years : list Z) (rate_type : string) :
  List.length cash_flows = List.length years ->
  Forall (fun y => (y <= 0)%Z) years ->
  returns (calculate_npv_greenbook cash_flows (Some years) rate_type)
          (Py.sum cash_flows).
Proof.
  intros Hlen Hy.
  destruct (calculate_npv_greenbook_match cash_flows years rate_type Hlen)
    as (v & Hv & E).
  exists v. split; [exact Hv |].
  rewrite E, sum_indexed, discounted_total_same_length by exact Hlen.
  apply sum_upto_ext. intros i Hi.
  rewrite calculate_discount_factor_nonpos.
  - field.
  - apply (proj1 (Forall_forall _ _) Hy). apply nth_In. now rewrite <- Hlen.
Qed.

Lemma calculate_npv_greenbook_undiscounted_witness :
  returns (calculate_npv_greenbook [-1000; 400] (Some [0; -2]%Z) "standard")
          (Py.sum [-1000; 400]).
Proof.
  apply (calculate_npv_greenbook_undiscounted
           [-1000; 400] [0; -2]%Z "standard" eq_refl).
  repeat constructor; discriminate.
Defined.
